(** * Rule-based credit scoring from payslip data

    A shallow embedding of [calculate_credit_score] of [src/main.py] and the
    properties its specification states about it.

    Python's [float] is IEEE 754 binary64, which is what Rocq's primitive
    [float] is, so the salary figures, the ratios and the thresholds are
    modelled bit for bit: [0.85] below is the same double as Python's [0.85],
    [nan] and the infinities are inputs like any other, and [x / y] is
    Python's true division, which raises [ZeroDivisionError] on a zero
    divisor instead of returning an infinity.  The running [score] is a
    Python [int], modelled as [Z]. *)

From Stdlib Require Import ZArith Lia Bool List String.
From Stdlib Require Import Floats.
Import ListNotations.

Set Warnings "-inexact-float".

(** ** Python values and exceptions *)

Module Py.

Inductive exn : Type :=
| ValueError (msg : string)
| ZeroDivisionError.

(** [x > y], [x >= y] and [x == y] on floats; [x < y] and [x <= y] are the
    primitive [<?] and [<=?].  An [int] literal on one side
    ([gross_salary > 0]) compares as the float of the same value. *)
Definition gt (x y : float) : bool := (y <? x)%float.
Definition ge (x y : float) : bool := (y <=? x)%float.
Definition eq (x y : float) : bool := (x =? y)%float.

(** [x / y] on floats. *)
Definition truediv (x y : float) : exn + float :=
  if (y =? 0)%float then inl ZeroDivisionError else inr (x / y)%float.

(** Truth value of an [Optional[bool]] ([None] and [False] are falsy) and of
    a [str] (only the empty string is falsy). *)
Definition truthy_bool (b : option bool) : bool :=
  match b with Some true => true | _ => false end.

Definition truthy_str (s : string) : bool := negb (String.eqb s EmptyString).

End Py.

Notation "x >? y" := (Py.gt x y) (at level 70, no associativity) : float_scope.
Notation "x >=? y" := (Py.ge x y) (at level 70, no associativity) : float_scope.
Notation "x == y" := (Py.eq x y) (at level 70, no associativity) : float_scope.

(** ** The request: the pydantic models of lines 8-37 *)

Record Indicators : Type := {
  net_to_gross_ratio : option float;
  deduction_ratio : option float;
  allowance_ratio : option float;
  overtime_ratio : option float;
  bonus_ratio : option float;
  loan_to_net_ratio : option float;
  estimated_tax_rate : option float;
  disposable_income : option float;
  savings_potential : option float;
  income_stability_flag : option bool;
  benefits_value_estimate : option float;
  probable_student_flag : option bool
}.

Record Features : Type := {
  net_salary : option float;
  gross_salary : option float;
  basic_salary : option float;
  employment_start_date : option string;
  pension : option float;
  garnishments : option float;
  indicators : Indicators
}.

Record PayslipData : Type := {
  success : bool;
  user_id : string;
  loan_id : string;
  features : Features
}.

(** ** The local variable [score]

    The function keeps one mutable local, [score].  A [frame] holds its
    current value and, most recent first, every value that was ever assigned
    to it, so that statements about intermediate values of [score] can be
    made.  A computation reads and updates the frame and either yields a
    value or raises; the frame survives a [raise]. *)

Record frame : Type := { score : Z; history : list Z }.

Definition M (A : Type) : Type := frame -> frame * (Py.exn + A).

Definition ret {A} (a : A) : M A := fun fr => (fr, inr a).

Definition bind {A B} (m : M A) (k : A -> M B) : M B :=
  fun fr =>
    match m fr with
    | (fr', inr a) => k a fr'
    | (fr', inl e) => (fr', inl e)
    end.

Definition raise {A} (e : Py.exn) : M A := fun fr => (fr, inl e).

Definition lift {A} (r : Py.exn + A) : M A := fun fr => (fr, r).

Notation "x <- m ;; k" := (bind m (fun x => k))
  (at level 61, m at next level, right associativity).
Notation "m ;; k" := (bind m (fun _ => k))
  (at level 61, right associativity).

Definition skip : M unit := ret tt.

Definition read_score : M Z := fun fr => (fr, inr (score fr)).

(** [score = v] *)
Definition assign (v : Z) : M unit :=
  fun fr => ({| score := v; history := v :: history fr |}, inr tt).

(** [score += p] *)
Definition add_points (p : Z) : M unit :=
  s <- read_score ;; assign (s + p).

(** [score = max(score - p, 0)] *)
Definition penalise (p : Z) : M unit :=
  s <- read_score ;; assign (Z.max (s - p) 0).

(** [score = min(score, c)] *)
Definition cap (c : Z) : M unit :=
  s <- read_score ;; assign (Z.min s c).

Definition critical_message : string :=
  "Critical salary information is missing. Cannot calculate score.".

(** ** The scoring function, lines 51-172 *)

Section Engine.

Local Open Scope float_scope.

(** Lines 121-122: [datetime.fromisoformat(s.split('T')[0])] subtracted from
    [datetime.now()], in whole days.  The [datetime] module and the clock are
    outside the repository: [tenure_days_of s] is the number of days when the
    date parses, and [None] when the [try] block raises [ValueError] or
    [TypeError], which line 125 swallows. *)
Variable tenure_days_of : string -> option Z.

(** Lines 66-73: income evaluation based on the net-to-gross ratio. *)
Definition income_evaluation (net_salary gross_salary : option float) : M unit :=
  match net_salary, gross_salary with
  | Some net, Some gross =>
      if gross >? 0 then
        net_to_gross_ratio <- lift (Py.truediv net gross) ;;
        if net_to_gross_ratio >=? 0.85 then add_points 20
        else if net_to_gross_ratio >=? 0.75 then add_points 15
        else if net_to_gross_ratio >=? 0.65 then add_points 10
        else add_points 5
      else skip
  | _, _ => skip
  end.

(** Lines 76-79: salary composition analysis. *)
Definition salary_composition (basic_salary gross_salary : option float) : M unit :=
  match basic_salary, gross_salary with
  | Some basic, Some gross =>
      if gross >? 0 then
        composition_ratio <- lift (Py.truediv basic gross) ;;
        if composition_ratio >=? 0.8 then add_points 10
        else if composition_ratio >=? 0.6 then add_points 5
        else skip
      else skip
  | _, _ => skip
  end.

(** Lines 82-83: income stability indicator. *)
Definition income_stability (flag : option bool) : M unit :=
  if Py.truthy_bool flag then add_points 5 else skip.

(** Lines 90-93: existing debt burden assessment. *)
Definition debt_burden (loan_to_net_ratio : option float) : M unit :=
  match loan_to_net_ratio with
  | Some ratio =>
      if ratio <=? 0.1 then add_points 25
      else if ratio <=? 0.25 then add_points 15
      else if ratio <=? 0.4 then add_points 5
      else skip
  | None => skip
  end.

(** Lines 97-98: no garnishments is positive. *)
Definition no_garnishments (garnishments : option float) : M unit :=
  match garnishments with
  | None => add_points 10
  | Some g => if g == 0 then add_points 10 else skip
  end.

(** Lines 105-109: disposable income as a share of net salary. *)
Definition disposable_share (disposable_income net_salary : option float) : M unit :=
  match disposable_income, net_salary with
  | Some disposable, Some net =>
      if net >? 0 then
        disposable_ratio <- lift (Py.truediv disposable net) ;;
        if disposable_ratio >? 0.4 then add_points 15
        else if disposable_ratio >=? 0.25 then add_points 10
        else if disposable_ratio >=? 0.15 then add_points 5
        else skip
      else skip
  | _, _ => skip
  end.

(** Lines 113-115: pension contribution. *)
Definition pension_contribution (pension net_salary : option float) : M unit :=
  match pension with
  | Some p =>
      if p >? 0 then
        match net_salary with
        | Some net =>
            if net >? 0 then
              pension_ratio <- lift (Py.truediv p net) ;;
              if pension_ratio >=? 0.05 then add_points 5 else skip
            else skip
        | None => skip
        end
      else skip
  | None => skip
  end.

(** Lines 118-126: employment stability.  [None] is falsy at line 119. *)
Definition employment_stability (start_date_str : option string) : M unit :=
  match start_date_str with
  | Some s =>
      if Py.truthy_str s then
        match tenure_days_of s with
        | Some tenure_days =>
            if (tenure_days >? 3 * 365)%Z then add_points 10
            else if (tenure_days >? 1 * 365)%Z then add_points 5
            else skip
        | None => skip
        end
      else skip
  | None => skip
  end.

(** Lines 129-157: loan affordability assessment. *)
Definition loan_affordability (net_salary disposable_income : option float)
    (requested_loan_amount : float) : M unit :=
  match net_salary with
  | Some net =>
      if net >? 0 then
        let annual_income := net * 12 in
        loan_affordability_ratio <- lift (Py.truediv requested_loan_amount annual_income) ;;
        (if loan_affordability_ratio >? 8 then penalise 30
         else if loan_affordability_ratio >? 5 then penalise 20
         else if loan_affordability_ratio >? 3 then penalise 10
         else if loan_affordability_ratio >? 2 then penalise 5
         else skip) ;;
        if requested_loan_amount >=? 100000 then
          let monthly_payment_estimate := requested_loan_amount * 0.01 in
          payment_to_income_ratio <- lift (Py.truediv monthly_payment_estimate net) ;;
          (if payment_to_income_ratio >? 0.5 then penalise 20
           else if payment_to_income_ratio >? 0.35 then penalise 10
           else skip) ;;
          match disposable_income with
          | Some disposable =>
              if disposable <? monthly_payment_estimate then penalise 15 else skip
          | None => skip
          end
        else skip
      else skip
  | None => skip
  end.

(** Lines 161-162: active garnishments cap the score. *)
Definition garnishment_red_flag (garnishments : option float) : M unit :=
  match garnishments with
  | Some g => if g >? 0 then cap 30 else skip
  | None => skip
  end.

(** Lines 165-166: a high existing debt burden caps the score. *)
Definition debt_red_flag (loan_to_net_ratio : option float) : M unit :=
  match loan_to_net_ratio with
  | Some ratio => if ratio >? 0.5 then cap 40 else skip
  | None => skip
  end.

(** Lines 169-170: critical information validation. *)
Definition critical_validation (net_salary gross_salary : option float) : M unit :=
  match net_salary, gross_salary with
  | Some _, Some _ => skip
  | _, _ => raise (Py.ValueError critical_message)
  end.

(** Lines 75-172: everything after the net-to-gross rule. *)
Definition scoring_from_line_75 (features : Features)
    (requested_loan_amount : float) : M Z :=
  let indicators := indicators features in
  let net_salary := net_salary features in
  let gross_salary := gross_salary features in
  let basic_salary := basic_salary features in
  salary_composition basic_salary gross_salary ;;
  income_stability (income_stability_flag indicators) ;;
  let loan_to_net_ratio := loan_to_net_ratio indicators in
  let garnishments := garnishments features in
  debt_burden loan_to_net_ratio ;;
  no_garnishments garnishments ;;
  let disposable_income := disposable_income indicators in
  let pension := pension features in
  disposable_share disposable_income net_salary ;;
  pension_contribution pension net_salary ;;
  employment_stability (employment_start_date features) ;;
  loan_affordability net_salary disposable_income requested_loan_amount ;;
  garnishment_red_flag garnishments ;;
  debt_red_flag loan_to_net_ratio ;;
  critical_validation net_salary gross_salary ;;
  score <- read_score ;;
  ret (Z.min score 100).

(** The body of [calculate_credit_score], over the frame of its local. *)
Definition calculate_credit_score_body (data : PayslipData)
    (requested_loan_amount : float) : M Z :=
  assign 0 ;;
  let features := features data in
  income_evaluation (net_salary features) (gross_salary features) ;;
  scoring_from_line_75 features requested_loan_amount.

(** The body with lines 66-73 taken out. *)
Definition body_without_income_evaluation (data : PayslipData)
    (requested_loan_amount : float) : M Z :=
  assign 0 ;;
  scoring_from_line_75 (features data) requested_loan_amount.

(** A call starts with no value assigned to [score] yet. *)
Definition entry : frame := {| score := 0; history := [] |}.

Definition calculate_credit_score (data : PayslipData)
    (requested_loan_amount : float) : Py.exn + Z :=
  snd (calculate_credit_score_body data requested_loan_amount entry).

(** The values [score] took during a call, in the order assigned. *)
Definition score_trace (data : PayslipData) (requested_loan_amount : float) : list Z :=
  rev (history (fst (calculate_credit_score_body data requested_loan_amount entry))).

Definition without_income_evaluation (data : PayslipData)
    (requested_loan_amount : float) : Py.exn + Z :=
  snd (body_without_income_evaluation data requested_loan_amount entry).

End Engine.

(** ** The scenarios of the specification *)

Definition absent : Indicators :=
  {| net_to_gross_ratio := None; deduction_ratio := None; allowance_ratio := None;
     overtime_ratio := None; bonus_ratio := None; loan_to_net_ratio := None;
     estimated_tax_rate := None; disposable_income := None; savings_potential := None;
     income_stability_flag := None; benefits_value_estimate := None;
     probable_student_flag := None |}.

(** A request that carries only the two salaries. *)
Definition salaries_only (net gross : float) : PayslipData :=
  {| success := true; user_id := "user"; loan_id := "loan";
     features :=
       {| net_salary := Some net; gross_salary := Some gross; basic_salary := None;
          employment_start_date := None; pension := None; garnishments := None;
          indicators := absent |} |}.

Definition scenario_A (ok : bool) (user loan : string) (start_date : string) : PayslipData :=
  {| success := ok; user_id := user; loan_id := loan;
     features :=
       {| net_salary := Some 5000%float; gross_salary := Some 6000%float;
          basic_salary := Some 5000%float;
          employment_start_date := Some start_date;
          pension := Some 300%float; garnishments := Some 0%float;
          indicators :=
            {| net_to_gross_ratio := None; deduction_ratio := None;
               allowance_ratio := None; overtime_ratio := None; bonus_ratio := None;
               loan_to_net_ratio := Some 0.05%float;
               estimated_tax_rate := None;
               disposable_income := Some 2200%float;
               savings_potential := None; income_stability_flag := None;
               benefits_value_estimate := None; probable_student_flag := None |} |} |}.

Definition scenario_B (ok : bool) (user loan : string) : PayslipData :=
  {| success := ok; user_id := user; loan_id := loan;
     features :=
       {| net_salary := Some 2000%float; gross_salary := Some 2500%float;
          basic_salary := None; employment_start_date := None; pension := None;
          garnishments := None; indicators := absent |} |}.

(** Scenario A with one field changed. *)
Definition with_garnishments (g : option float) (data : PayslipData) : PayslipData :=
  let ft := features data in
  {| success := success data; user_id := user_id data; loan_id := loan_id data;
     features :=
       {| net_salary := net_salary ft; gross_salary := gross_salary ft;
          basic_salary := basic_salary ft;
          employment_start_date := employment_start_date ft;
          pension := pension ft; garnishments := g;
          indicators := indicators ft |} |}.

Definition with_loan_to_net_ratio (r : option float) (data : PayslipData) : PayslipData :=
  let ft := features data in
  let ind := indicators ft in
  {| success := success data; user_id := user_id data; loan_id := loan_id data;
     features :=
       {| net_salary := net_salary ft; gross_salary := gross_salary ft;
          basic_salary := basic_salary ft;
          employment_start_date := employment_start_date ft;
          pension := pension ft; garnishments := garnishments ft;
          indicators :=
            {| net_to_gross_ratio := net_to_gross_ratio ind;
               deduction_ratio := deduction_ratio ind;
               allowance_ratio := allowance_ratio ind;
               overtime_ratio := overtime_ratio ind;
               bonus_ratio := bonus_ratio ind;
               loan_to_net_ratio := r;
               estimated_tax_rate := estimated_tax_rate ind;
               disposable_income := disposable_income ind;
               savings_potential := savings_potential ind;
               income_stability_flag := income_stability_flag ind;
               benefits_value_estimate := benefits_value_estimate ind;
               probable_student_flag := probable_student_flag ind |} |} |}.

(** The same features with another [net_salary]. *)
Definition with_net_salary (net : option float) (ft : Features) : Features :=
  {| net_salary := net; gross_salary := gross_salary ft;
     basic_salary := basic_salary ft;
     employment_start_date := employment_start_date ft;
     pension := pension ft; garnishments := garnishments ft;
     indicators := indicators ft |}.

Definition applicant_A : PayslipData := scenario_A true "user" "loan" "2021-03-01".

(** A clock for the examples: every start date is 1461 days (four years) back. *)
Definition four_years_ago (_ : string) : option Z := Some 1461%Z.

(** What a command adds to [score] when run from a frame. *)
Definition contribution (c : M unit) (fr : frame) : Z :=
  (score (fst (c fr)) - score fr)%Z.

(** A frame whose [score] was never negative. *)
Definition never_negative (fr : frame) : Prop :=
  (0 <= score fr)%Z /\ Forall (Z.le 0) (history fr).

(** [c] never raises and acts on [score] as the function [f]; from a
    non-negative score every value it assigns is non-negative. *)
Definition runs (c : M unit) (f : Z -> Z) : Prop :=
  forall fr, exists h,
    c fr = ({| score := f (score fr); history := h ++ history fr |}, inr tt)
    /\ ((0 <= score fr)%Z -> Forall (Z.le 0) h).

(** Score updates that keep the order of scores, never widen a gap between
    two scores and keep a non-negative score non-negative. *)
Definition tame (f : Z -> Z) : Prop :=
  (forall x y, x <= y -> 0 <= f y - f x <= y - x)%Z
  /\ (forall s, 0 <= s -> 0 <= f s)%Z.

(** Straight-line updates of [score]. *)
Inductive straight : M unit -> Prop :=
| straight_skip : straight skip
| straight_assign v : (0 <= v)%Z -> straight (assign v)
| straight_add p : (0 <= p)%Z -> straight (add_points p)
| straight_penalise p : straight (penalise p)
| straight_cap k : (0 <= k)%Z -> straight (cap k)
| straight_seq c d : straight c -> straight d -> straight (c ;; d).

(** Updates made only of the floored penalties [score = max(score - p, 0)]
    of lines 135-157. *)
Inductive floored : M unit -> Prop :=
| floored_skip : floored skip
| floored_penalise p : In p [5; 10; 15; 20; 30]%Z -> floored (penalise p)
| floored_seq c d : floored c -> floored d -> floored (c ;; d).

(** Lines 169-172, the end of the function. *)
Definition closing (net_salary gross_salary : option float) : M Z :=
  critical_validation net_salary gross_salary ;;
  score <- read_score ;;
  ret (Z.min score 100).

(** Lines 161-172, from the red flags to the end. *)
Definition red_flags_onwards (features : Features) : M Z :=
  garnishment_red_flag (garnishments features) ;;
  debt_red_flag (loan_to_net_ratio (indicators features)) ;;
  closing (net_salary features) (gross_salary features).

(** [m] is a run of straight-line updates followed by [k]. *)
Inductive ends_with {B} (k : M B) : M B -> Prop :=
| ends_here : ends_with k k
| ends_step c m : straight c -> ends_with k m -> ends_with k (c ;; m).

(** ** The endpoint, lines 42-46 and 190-229 *)

Module Http.

(** Lines 42-46. *)
Record CreditScoreResponse : Type := {
  user_id : string;
  loan_id : string;
  credit_score : Z
}.

Record HTTPException : Type := { status_code : Z; detail : string }.

End Http.

Section Endpoint.

Variable tenure_days_of : string -> option Z.

(** [str(e)] of a [ZeroDivisionError], a text the interpreter chooses. *)
Variable zero_division_text : string.

(** The text of pydantic's [ValidationError] (a [ValueError]) for a
    [credit_score] outside [ge=0, le=100]. *)
Variable validation_text : Z -> string.

Definition str (e : Py.exn) : string :=
  match e with
  | Py.ValueError msg => msg
  | Py.ZeroDivisionError => zero_division_text
  end.

(** [CreditScoreResponse(user_id=..., loan_id=..., credit_score=...)], with
    the [Field] constraint of line 46. *)
Definition new_CreditScoreResponse (user_id loan_id : string) (credit_score : Z)
    : Py.exn + Http.CreditScoreResponse :=
  if ((0 <=? credit_score) && (credit_score <=? 100))%Z
  then inr {| Http.user_id := user_id; Http.loan_id := loan_id;
              Http.credit_score := credit_score |}
  else inl (Py.ValueError (validation_text credit_score)).

(** Lines 191-229.  [model_dump] turns the request into the nested [dict]
    that [calculate_credit_score] reads, the records here. *)
Definition evaluate_credit_score (payslip_data : PayslipData)
    : Http.HTTPException + Http.CreditScoreResponse :=
  let attempt :=
    let data_dict := payslip_data in
    let requested_loan_amount := 100000%float in
    match calculate_credit_score tenure_days_of data_dict requested_loan_amount with
    | inr score =>
        new_CreditScoreResponse (user_id payslip_data) (loan_id payslip_data) score
    | inl e => inl e
    end in
  match attempt with
  | inr response_data => inr response_data
  | inl (Py.ValueError _ as e) =>
      inl {| Http.status_code := 422; Http.detail := str e |}
  | inl e =>
      inl {| Http.status_code := 500;
             Http.detail :=
               "An unexpected error occurred during score calculation: " ++ str e |}
  end.

End Endpoint.

(** ** Relations between frames, commands and runs *)

(** The request with another [employment_start_date]. *)
Definition with_employment_start_date (d : option string) (data : PayslipData)
    : PayslipData :=
  let ft := features data in
  {| success := success data; user_id := user_id data; loan_id := loan_id data;
     features :=
       {| net_salary := net_salary ft; gross_salary := gross_salary ft;
          basic_salary := basic_salary ft;
          employment_start_date := d;
          pension := pension ft; garnishments := garnishments ft;
          indicators := indicators ft |} |}.

(** The value of the local [score] when the call ends. *)
Definition final_running_score (tenure : string -> option Z) (data : PayslipData)
    (requested_loan_amount : float) : Z :=
  score (fst (calculate_credit_score_body tenure data requested_loan_amount entry)).

(** Scenario B as another client would send it: other identifiers, and
    indicator fields filled in that the scoring does not read. *)
Definition scenario_B_restated : PayslipData :=
  {| success := false; user_id := "another user"; loan_id := "another loan";
     features :=
       {| net_salary := Some 2000%float; gross_salary := Some 2500%float;
          basic_salary := None; employment_start_date := None; pension := None;
          garnishments := None;
          indicators :=
            {| net_to_gross_ratio := Some 0.99%float;
               deduction_ratio := Some 0.01%float;
               allowance_ratio := None; overtime_ratio := None; bonus_ratio := None;
               loan_to_net_ratio := None;
               estimated_tax_rate := Some 0.3%float;
               disposable_income := None;
               savings_potential := Some 500%float; income_stability_flag := None;
               benefits_value_estimate := None;
               probable_student_flag := Some true |} |} |}.

(** A clock under which every start date is 400 days back. *)
Definition four_hundred_days_ago (_ : string) : option Z := Some 400%Z.

(** Two requests that agree on the nine fields the scoring reads. *)
Definition same_scoring_fields (a b : PayslipData) : Prop :=
  let fa := features a in
  let fb := features b in
  net_salary fa = net_salary fb
  /\ gross_salary fa = gross_salary fb
  /\ basic_salary fa = basic_salary fb
  /\ employment_start_date fa = employment_start_date fb
  /\ pension fa = pension fb
  /\ garnishments fa = garnishments fb
  /\ loan_to_net_ratio (indicators fa) = loan_to_net_ratio (indicators fb)
  /\ disposable_income (indicators fa) = disposable_income (indicators fb)
  /\ income_stability_flag (indicators fa) = income_stability_flag (indicators fb).

(** A frame all of whose scores are multiples of 5 between 0 and 100, the
    current one at most [bound]. *)
Definition graded (bound : Z) (fr : frame) : Prop :=
  (0 <= score fr <= bound)%Z
  /\ (score fr mod 5 = 0)%Z
  /\ Forall (fun v => (0 <= v <= 100)%Z /\ (v mod 5 = 0)%Z) (history fr).

(** From a frame in [P] the command [c] does not raise and ends in [Q]. *)
Definition triple (P : frame -> Prop) (c : M unit) (Q : frame -> Prop) : Prop :=
  forall fr, P fr -> exists fr', c fr = (fr', inr tt) /\ Q fr'.

(** [c1] leaves a score no higher than [c2] does, when it starts from one
    that is no higher; the scores are never negative. *)
Definition below (c1 c2 : M unit) : Prop :=
  forall fr1 fr2,
    (0 <= score fr1 <= score fr2)%Z ->
    (0 <= score (fst (c1 fr1)) <= score (fst (c2 fr2)))%Z.

(** Two outcomes of a call: the same exception, or a score no higher. *)
Definition outcome_le (r1 r2 : Py.exn + Z) : Prop :=
  match r1, r2 with
  | inr s1, inr s2 => (s1 <= s2)%Z
  | inl e1, inl e2 => e1 = e2
  | _, _ => False
  end.

(** The run [m1] ends no higher than [m2], when it starts no higher. *)
Definition dominated (m1 m2 : M Z) : Prop :=
  forall fr1 fr2,
    (0 <= score fr1 <= score fr2)%Z -> outcome_le (snd (m1 fr1)) (snd (m2 fr2)).

(** * Facts about binary64 arithmetic

    The guards of the source ([gross_salary > 0], [net_salary > 0]) are what
    keeps its divisions away from a zero divisor.  That takes three facts
    about doubles, derived here from the specification of the primitive
    operations: a positive double is not zero, twelve times a positive double
    is positive (the product can overflow to infinity but cannot round to
    zero), and [<=] is transitive. *)

Module FloatFacts.

Local Open Scope Z_scope.

Lemma digits2_pos_lower p : 2 ^ (Zpos (digits2_pos p) - 1) <= Zpos p.
Proof.
  induction p as [p IH|p IH|]; cbn [digits2_pos]; [| |cbn; lia];
    rewrite Pos2Z.inj_succ;
    replace (Z.succ (Zpos (digits2_pos p)) - 1)
      with (Z.succ (Zpos (digits2_pos p) - 1)) by lia;
    rewrite Z.pow_succ_r by lia; lia.
Qed.

Lemma shr_m_shr_1 r : 0 <= shr_m r -> shr_m (shr_1 r) = shr_m r / 2.
Proof.
  rewrite <- Z.div2_div.
  destruct r as [m b s]; destruct m as [|[p|p|]|p]; cbn; intros;
    try reflexivity; lia.
Qed.

Lemma shr_m_iter_pos n :
  forall r, 0 <= shr_m r -> shr_m (iter_pos shr_1 n r) = shr_m r / 2 ^ Zpos n.
Proof.
  assert (Hhalf : forall a, 0 <= a -> 0 <= a / 2) by (intros; apply Z.div_pos; lia).
  assert (Hpow : forall k, 0 < 2 ^ Zpos k) by (intros; apply Z.pow_pos_nonneg; lia).
  induction n as [n IH|n IH|]; intros r Hr; cbn [iter_pos].
  - assert (H1 : 0 <= shr_m (shr_1 r)) by (rewrite shr_m_shr_1; auto).
    assert (H2 : 0 <= shr_m (iter_pos shr_1 n (shr_1 r)))
      by (rewrite IH by assumption; apply Z.div_pos; auto).
    rewrite IH, IH, shr_m_shr_1 by assumption.
    rewrite !Z.div_div by (specialize (Hpow n); lia).
    f_equal. replace (Zpos n~1) with (1 + Zpos n + Zpos n) by lia.
    rewrite !Z.pow_add_r by lia. ring.
  - assert (H2 : 0 <= shr_m (iter_pos shr_1 n r))
      by (rewrite IH by assumption; apply Z.div_pos; auto).
    rewrite IH, IH by assumption.
    rewrite !Z.div_div by (specialize (Hpow n); lia).
    f_equal. replace (Zpos n~0) with (Zpos n + Zpos n) by lia.
    rewrite !Z.pow_add_r by lia. ring.
  - now rewrite shr_m_shr_1.
Qed.

(** Shifting a mantissa down to its canonical exponent leaves it positive,
    provided it reaches the subnormal range. *)
Lemma shr_fexp_pos m e l :
  0 < m -> 2 ^ (emin - e) <= m ->
  0 < shr_m (fst (shr_fexp prec emax m e l))
  /\ emin <= snd (shr_fexp prec emax m e l).
Proof.
  intros Hm Hlow. unfold shr_fexp, shr.
  assert (Hrec : shr_m (shr_record_of_loc m l) = m)
    by (destruct l as [|[]]; reflexivity).
  destruct m as [|p|p]; try lia. cbn [Zdigits2].
  pose proof (digits2_pos_lower p) as Hd.
  set (d := Zpos (digits2_pos p)) in *.
  unfold fexp. change (SpecFloat.emin prec emax) with (-1074) in *.
  change prec with 53.
  destruct (Z.max (d + e - 53) (-1074) - e) as [|n|n] eqn:En; cbn [fst snd].
  - rewrite Hrec. lia.
  - rewrite shr_m_iter_pos by (rewrite Hrec; lia). rewrite Hrec. split; [|lia].
    apply Z.div_str_pos. split; [apply Z.pow_pos_nonneg; lia|].
    destruct (Z.max_spec (d + e - 53) (-1074)) as [[_ Hx]|[_ Hx]];
      rewrite Hx in En.
    + replace (Zpos n) with (-1074 - e) by lia. exact Hlow.
    + transitivity (2 ^ (d - 1)); [apply Z.pow_le_mono_r; lia|exact Hd].
  - rewrite Hrec. lia.
Qed.

Lemma round_nearest_even_ge m l : m <= round_nearest_even m l.
Proof. destruct l as [|[]]; cbn; try destruct (Z.even m); lia. Qed.

(** Rounding such a mantissa gives a positive double or [+infinity]. *)
Lemma binary_round_aux_pos m e l :
  0 < m -> 2 ^ (emin - e) <= m ->
  SFltb (S754_zero false) (binary_round_aux prec emax false m e l) = true.
Proof.
  intros Hm Hlow. unfold binary_round_aux.
  destruct (shr_fexp_pos m e l Hm Hlow) as [H1 H2].
  destruct (shr_fexp prec emax m e l) as [mrs' e']. cbn [fst snd] in *.
  pose proof (round_nearest_even_ge (shr_m mrs') (loc_of_shr_record mrs')) as Hr.
  set (m' := round_nearest_even _ _) in *.
  assert (Hm' : 0 < m') by lia.
  assert (Hlow' : 2 ^ (emin - e') <= m').
  { destruct (Z.eq_dec e' emin) as [->|]; [rewrite Z.sub_diag; cbn; lia|].
    rewrite Z.pow_neg_r by lia. lia. }
  destruct (shr_fexp_pos m' e' loc_Exact Hm' Hlow') as [H3 _].
  destruct (shr_fexp prec emax m' e' loc_Exact) as [mrs'' e'']. cbn [fst snd] in *.
  destruct (shr_m mrs''); try lia.
  destruct (e'' <=? emax - prec); reflexivity.
Qed.

Local Open Scope float_scope.

Lemma Prim2SF_zero : Prim2SF 0 = S754_zero false.
Proof. reflexivity. Qed.

Lemma Prim2SF_twelve : Prim2SF 12 = S754_finite false 6755399441055744 (-49).
Proof. reflexivity. Qed.

Lemma pos_nonzero (x : float) : (0 <? x) = true -> (x =? 0) = false.
Proof.
  rewrite ltb_spec, eqb_spec, Prim2SF_zero.
  destruct (Prim2SF x) as [s|s| |s m e]; cbn; try destruct s; congruence.
Qed.

Lemma nonpos_not_pos (x : float) : (x <=? 0) = true -> (0 <? x) = false.
Proof.
  rewrite ltb_spec, leb_spec, Prim2SF_zero.
  destruct (Prim2SF x) as [s|s| |s m e]; cbn; try destruct s; congruence.
Qed.

Lemma mul_twelve_pos (x : float) : (0 <? x) = true -> (0 <? x * 12) = true.
Proof.
  rewrite !ltb_spec, mul_spec, Prim2SF_zero, Prim2SF_twelve.
  pose proof (Prim2SF_valid x) as Hv.
  destruct (Prim2SF x) as [[]|[]| |[] m e]; try discriminate; try reflexivity.
  intros _. unfold SF64mul, SFmul. change (xorb false false) with false.
  apply binary_round_aux_pos; [lia|].
  cbn in Hv. apply andb_prop in Hv. destruct Hv as [Hc _].
  unfold canonical_mantissa, fexp in Hc. apply Z.eqb_eq in Hc.
  change (SpecFloat.emin prec emax) with (-1074)%Z in *.
  transitivity (2 ^ 49)%Z; [apply Z.pow_le_mono_r; lia|].
  rewrite Pos2Z.inj_mul. change (2 ^ 49)%Z with 562949953421312%Z. nia.
Qed.

Lemma SFleb_trans x y z :
  SFleb x y = true -> SFleb y z = true -> SFleb x z = true.
Proof.
  unfold SFleb.
  destruct x as [sx|sx| |sx mx ex], y as [sy|sy| |sy my ey], z as [sz|sz| |sz mz ez];
    cbn; try destruct sx; try destruct sy; try destruct sz; try congruence;
    change (Pos.compare_cont Eq) with Pos.compare;
    destruct (Z.compare_spec ex ey), (Z.compare_spec ey ez), (Z.compare_spec ex ez);
    try lia; try congruence; subst;
    destruct (Pos.compare_spec mx my), (Pos.compare_spec my mz),
      (Pos.compare_spec mx mz);
    cbn; try lia; congruence.
Qed.

Lemma leb_trans x y z :
  (x <=? y) = true -> (y <=? z) = true -> (x <=? z) = true.
Proof. rewrite !leb_spec. apply SFleb_trans. Qed.

End FloatFacts.

(** * The divisions of the source never divide by zero *)

Lemma truediv_positive (x y : float) :
  (y >? 0)%float = true -> Py.truediv x y = inr (x / y)%float.
Proof.
  unfold Py.gt, Py.truediv. intros H.
  now rewrite (FloatFacts.pos_nonzero y H).
Qed.

Lemma truediv_annual_income (x net : float) :
  (net >? 0)%float = true ->
  Py.truediv x (net * 12)%float = inr (x / (net * 12))%float.
Proof.
  intros H. apply truediv_positive. unfold Py.gt in *.
  now apply FloatFacts.mul_twelve_pos.
Qed.

(** * The frame monad *)

Lemma bind_lift {A B} (a : A) (k : A -> M B) : bind (lift (inr a)) k = k a.
Proof. reflexivity. Qed.

Lemma bind_skip {B} (k : unit -> M B) : bind skip k = k tt.
Proof. reflexivity. Qed.

Lemma tame_compose f g : tame f -> tame g -> tame (fun s => g (f s)).
Proof.
  intros [Hf1 Hf2] [Hg1 Hg2]. split.
  - intros x y Hxy. specialize (Hf1 x y Hxy).
    assert (Hle : (f x <= f y)%Z) by lia.
    specialize (Hg1 (f x) (f y) Hle). lia.
  - intros s Hs. auto.
Qed.

Lemma runs_seq c d f g :
  runs c f -> tame f -> runs d g -> runs (c ;; d) (fun s => g (f s)).
Proof.
  intros Hc [_ Hf] Hd fr.
  destruct (Hc fr) as [h1 [E1 N1]].
  destruct (Hd {| score := f (score fr); history := h1 ++ history fr |})
    as [h2 [E2 N2]].
  exists (h2 ++ h1). unfold bind. rewrite E1, E2. cbn [score history] in *.
  rewrite app_assoc. split; [reflexivity|].
  intros Hs. apply Forall_app. split; auto.
Qed.

(** A straight-line update runs as a tame function of the score. *)
Lemma straight_runs c : straight c -> exists f, runs c f /\ tame f.
Proof.
  induction 1 as [|v Hv|p Hp|p|k Hk|c d _ [f [Hf Tf]] _ [g [Hg Tg]]].
  - exists (fun s => s). split; [|split; intros; lia].
    intros [s h]. exists []. split; [reflexivity|constructor].
  - exists (fun _ => v). split; [|split; intros; lia].
    intros fr. exists [v]. split; [reflexivity|].
    intros Hs. repeat constructor. lia.
  - exists (fun s => (s + p)%Z). split; [|split; intros; lia].
    intros fr. exists [(score fr + p)%Z]. split; [reflexivity|].
    intros Hs. repeat constructor. lia.
  - exists (fun s => Z.max (s - p) 0). split; [|split; intros; lia].
    intros fr. exists [Z.max (score fr - p) 0]. split; [reflexivity|].
    intros Hs. repeat constructor. lia.
  - exists (fun s => Z.min s k). split; [|split; intros; lia].
    intros fr. exists [Z.min (score fr) k]. split; [reflexivity|].
    intros Hs. repeat constructor. lia.
  - exists (fun s => g (f s)). split.
    + now apply runs_seq.
    + now apply tame_compose.
Qed.

(** * Every rule is a straight-line update of [score] *)

Create HintDb scoring.

Ltac split_rule :=
  repeat first
    [ match goal with
      | H : (?y >? 0)%float = true |- context [Py.truediv ?x ?y] =>
          rewrite (truediv_positive x y H)
      | H : (?y >? 0)%float = true |- context [Py.truediv ?x (?y * 12)%float] =>
          rewrite (truediv_annual_income x y H)
      end
    | rewrite bind_lift; cbv beta
    | match goal with
      | |- context [match ?o with Some _ => _ | None => _ end] => destruct o eqn:?
      | |- context [if ?b then _ else _] => destruct b eqn:?
      end ].

Ltac straight_line := repeat (constructor; try lia).

Lemma income_evaluation_straight n g : straight (income_evaluation n g).
Proof. unfold income_evaluation. split_rule; straight_line. Qed.

Lemma salary_composition_straight b g : straight (salary_composition b g).
Proof. unfold salary_composition. split_rule; straight_line. Qed.

Lemma income_stability_straight flag : straight (income_stability flag).
Proof. unfold income_stability. split_rule; straight_line. Qed.

Lemma debt_burden_straight r : straight (debt_burden r).
Proof. unfold debt_burden. split_rule; straight_line. Qed.

Lemma no_garnishments_straight g : straight (no_garnishments g).
Proof. unfold no_garnishments. split_rule; straight_line. Qed.

Lemma disposable_share_straight d n : straight (disposable_share d n).
Proof. unfold disposable_share. split_rule; straight_line. Qed.

Lemma pension_contribution_straight p n : straight (pension_contribution p n).
Proof. unfold pension_contribution. split_rule; straight_line. Qed.

Lemma employment_stability_straight tenure s :
  straight (employment_stability tenure s).
Proof. unfold employment_stability. split_rule; straight_line. Qed.

Lemma loan_affordability_straight n d loan : straight (loan_affordability n d loan).
Proof. unfold loan_affordability. split_rule; straight_line. Qed.

Lemma garnishment_red_flag_straight g : straight (garnishment_red_flag g).
Proof. unfold garnishment_red_flag. split_rule; straight_line. Qed.

Lemma debt_red_flag_straight r : straight (debt_red_flag r).
Proof. unfold debt_red_flag. split_rule; straight_line. Qed.

#[export] Hint Resolve income_evaluation_straight salary_composition_straight
  income_stability_straight debt_burden_straight no_garnishments_straight
  disposable_share_straight pension_contribution_straight
  employment_stability_straight loan_affordability_straight
  garnishment_red_flag_straight debt_red_flag_straight : scoring.

(** * Running the function up to a given line *)

Lemma ends_with_runs {B} (k m : M B) :
  ends_with k m ->
  exists f, tame f /\
    forall fr, exists h,
      m fr = k {| score := f (score fr); history := h ++ history fr |}
      /\ ((0 <= score fr)%Z -> Forall (Z.le 0) h).
Proof.
  induction 1 as [|c m Hc _ [g [Tg Hg]]].
  - exists (fun s => s). split; [split; intros; lia|].
    intros [s h]. exists []. split; [reflexivity|constructor].
  - destruct (straight_runs c Hc) as [f [Hf Tf]].
    exists (fun s => g (f s)). split; [now apply tame_compose|].
    intros fr. destruct (Hf fr) as [h1 [E1 N1]].
    destruct (Hg {| score := f (score fr); history := h1 ++ history fr |})
      as [h2 [E2 N2]].
    exists (h2 ++ h1). unfold bind. rewrite E1, E2. cbn [score history] in *.
    rewrite app_assoc. split; [reflexivity|].
    intros Hs. apply Forall_app. destruct Tf as [_ Tf]. split; auto.
Qed.

Ltac step_rules :=
  repeat (apply ends_step; [solve [auto with scoring]|]); apply ends_here.

Lemma scoring_from_line_75_ends tenure ft loan :
  ends_with (closing (net_salary ft) (gross_salary ft))
    (scoring_from_line_75 tenure ft loan).
Proof. unfold scoring_from_line_75, closing; cbv zeta. step_rules. Qed.

Lemma scoring_from_line_75_red_flags tenure ft loan :
  ends_with (red_flags_onwards ft) (scoring_from_line_75 tenure ft loan).
Proof.
  unfold scoring_from_line_75, red_flags_onwards, closing; cbv zeta.
  do 8 (apply ends_step; [auto with scoring|]). apply ends_here.
Qed.

Lemma body_ends tenure data loan :
  ends_with (closing (net_salary (features data)) (gross_salary (features data)))
    (calculate_credit_score_body tenure data loan).
Proof.
  unfold calculate_credit_score_body; cbv zeta.
  apply ends_step; [constructor; lia|].
  apply ends_step; [auto with scoring|].
  apply scoring_from_line_75_ends.
Qed.

Lemma body_red_flags tenure data loan :
  ends_with (red_flags_onwards (features data))
    (calculate_credit_score_body tenure data loan).
Proof.
  unfold calculate_credit_score_body; cbv zeta.
  apply ends_step; [constructor; lia|].
  apply ends_step; [auto with scoring|].
  apply scoring_from_line_75_red_flags.
Qed.

(** The end of the function leaves the frame as it is; it raises exactly when
    a salary is absent. *)
Lemma closing_spec net gross fr :
  closing net gross fr =
    (fr, match net, gross with
         | Some _, Some _ => inr (Z.min (score fr) 100)
         | _, _ => inl (Py.ValueError critical_message)
         end).
Proof. destruct net, gross; reflexivity. Qed.

(** The whole call, seen from the frame at line 169. *)
Lemma call_spec tenure data loan :
  exists fr,
    never_negative fr
    /\ calculate_credit_score_body tenure data loan entry =
         closing (net_salary (features data)) (gross_salary (features data)) fr.
Proof.
  destruct (ends_with_runs _ _ (body_ends tenure data loan)) as [f [[_ Tf] Hf]].
  destruct (Hf entry) as [h [E N]].
  eexists. split; [|exact E]. cbn [entry score history] in *.
  split; cbn [score history].
  - apply Tf. lia.
  - rewrite app_nil_r. apply N. lia.
Qed.

Lemma bind_assign {B} v (k : M B) fr :
  (assign v ;; k) fr = k {| score := v; history := v :: history fr |}.
Proof. reflexivity. Qed.

Lemma bind_add_points {B} p (k : M B) fr :
  (add_points p ;; k) fr =
    k {| score := score fr + p; history := (score fr + p)%Z :: history fr |}.
Proof. reflexivity. Qed.

Lemma bind_cap {B} c (k : M B) fr :
  (cap c ;; k) fr =
    k {| score := Z.min (score fr) c; history := Z.min (score fr) c :: history fr |}.
Proof. reflexivity. Qed.

Ltac run_flags :=
  cbv iota; repeat first [rewrite bind_cap | rewrite bind_skip; cbv beta].

(** * The claims *)

(** C1.  [calculate_credit_score] raises the critical-data error (the
    [ValueError] of line 170, which the specification calls
    [MissingCriticalDataError]) if and only if [net_salary] or [gross_salary]
    is absent; it returns a score if and only if both are present, whatever
    their values; and it raises nothing else, in particular no
    [ZeroDivisionError]. *)
Theorem critical_data_is_the_only_error tenure data loan :
  (calculate_credit_score tenure data loan = inl (Py.ValueError critical_message)
   <-> net_salary (features data) = None \/ gross_salary (features data) = None)
  /\ ((exists s, calculate_credit_score tenure data loan = inr s)
      <-> net_salary (features data) <> None /\ gross_salary (features data) <> None)
  /\ (forall e, calculate_credit_score tenure data loan = inl e ->
                e = Py.ValueError critical_message).
Proof.
  unfold calculate_credit_score.
  destruct (call_spec tenure data loan) as [fr [_ E]].
  rewrite E, closing_spec. cbn [snd].
  destruct (net_salary (features data)), (gross_salary (features data));
    repeat split; intros; try discriminate; try congruence; eauto;
    try (intuition congruence);
    try (match goal with H : exists _, _ |- _ => destruct H; discriminate end).
Qed.

(** C2.  When both salaries are present the call returns an integer score
    [s] with [0 <= s <= 100]. *)
Theorem score_is_bounded tenure data loan n g :
  net_salary (features data) = Some n ->
  gross_salary (features data) = Some g ->
  exists s, calculate_credit_score tenure data loan = inr s /\ (0 <= s <= 100)%Z.
Proof.
  intros Hn Hg. unfold calculate_credit_score.
  destruct (call_spec tenure data loan) as [fr [[N _] E]].
  rewrite E, closing_spec, Hn, Hg. cbn [snd].
  eexists. split; [reflexivity|lia].
Qed.

(** C3.  Whenever [garnishments] is present and greater than 0 and the call
    returns, the returned score is at most 30, whatever the other fields
    hold. *)
Theorem garnishment_cap tenure data loan g s :
  garnishments (features data) = Some g ->
  (g >? 0)%float = true ->
  calculate_credit_score tenure data loan = inr s ->
  (s <= 30)%Z.
Proof.
  intros Hgarn Hpos. unfold calculate_credit_score.
  destruct (ends_with_runs _ _ (body_red_flags tenure data loan)) as [f [_ Hf]].
  destruct (Hf entry) as [h [E _]]. rewrite E. clear E Hf.
  unfold red_flags_onwards, garnishment_red_flag. rewrite Hgarn, Hpos, bind_cap.
  unfold debt_red_flag.
  destruct (loan_to_net_ratio (indicators (features data))) as [r|];
    [destruct (r >? 0.5)%float|];
    run_flags; rewrite closing_spec; cbn [snd score];
    destruct (net_salary (features data)), (gross_salary (features data));
    intros H; inversion H; lia.
Qed.

(** C4.  Whenever [indicators.loan_to_net_ratio] is present and greater than
    0.5 and the call returns, the returned score is at most 40. *)
Theorem debt_burden_cap tenure data loan r s :
  loan_to_net_ratio (indicators (features data)) = Some r ->
  (r >? 0.5)%float = true ->
  calculate_credit_score tenure data loan = inr s ->
  (s <= 40)%Z.
Proof.
  intros Hratio Hhigh. unfold calculate_credit_score.
  destruct (ends_with_runs _ _ (body_red_flags tenure data loan)) as [f [_ Hf]].
  destruct (Hf entry) as [h [E _]]. rewrite E. clear E Hf.
  unfold red_flags_onwards, debt_red_flag. rewrite Hratio, Hhigh.
  unfold garnishment_red_flag.
  destruct (garnishments (features data)) as [g|];
    [destruct (g >? 0)%float|];
    run_flags; rewrite closing_spec; cbn [snd score];
    destruct (net_salary (features data)), (gross_salary (features data));
    intros H; inversion H; lia.
Qed.

(** C5.  Scenario B: net 2000, gross 2500, every other field absent, loan
    amount 100000.  The call returns 5, and [score] goes 0, 15, 25 (the
    additive points), then 15 (the [> 3] affordability tier) and 5 (the
    [> 0.35] payment-to-income tier). *)
Theorem scenario_B_scores_5 tenure ok user loan :
  calculate_credit_score tenure (scenario_B ok user loan) 100000 = inr 5%Z
  /\ score_trace tenure (scenario_B ok user loan) 100000 = [0; 15; 25; 15; 5]%Z.
Proof. split; vm_compute; reflexivity. Qed.

(** C6.  Scenario A: net 5000, gross 6000, basic 5000, garnishments 0,
    loan-to-net ratio 0.05, disposable income 2200, pension 300, a start date
    that parses to more than 1095 days ago, loan amount 100000.  The call
    returns 90; [score] only ever grows (15, 10, 25, 10, 15, 5 and 10 points),
    the affordability block and both red flags leave it untouched. *)
Theorem scenario_A_scores_90 tenure ok user loan start days :
  start <> ""%string ->
  tenure start = Some days ->
  (1095 < days)%Z ->
  calculate_credit_score tenure (scenario_A ok user loan start) 100000 = inr 90%Z
  /\ score_trace tenure (scenario_A ok user loan start) 100000
     = [0; 15; 25; 50; 60; 75; 80; 90]%Z
  /\ (forall fr, loan_affordability (Some 5000%float) (Some 2200%float) 100000 fr
                 = (fr, inr tt))
  /\ (forall fr, garnishment_red_flag (Some 0%float) fr = (fr, inr tt))
  /\ (forall fr, debt_red_flag (Some 0.05%float) fr = (fr, inr tt)).
Proof.
  intros Hne Hparse Hdays.
  assert (Et : employment_stability tenure (Some start) = add_points 10).
  { unfold employment_stability, Py.truthy_str.
    destruct (String.eqb_spec start "") as [->|_]; [contradiction|].
    cbn [negb]. rewrite Hparse.
    replace (days >? 3 * 365)%Z with true by (symmetry; apply Z.gtb_lt; lia).
    reflexivity. }
  unfold calculate_credit_score, score_trace, calculate_credit_score_body,
    scoring_from_line_75.
  cbn [scenario_A features employment_start_date]. rewrite Et.
  repeat split; intros; vm_compute; reflexivity.
Qed.

Lemma floored_history c :
  floored c ->
  forall fr, exists s h,
    c fr = ({| score := s; history := h ++ history fr |}, inr tt)
    /\ Forall (Z.le 0) h.
Proof.
  induction 1 as [|p _|c d _ IHc _ IHd]; intros fr.
  - exists (score fr), []. destruct fr. split; [reflexivity|constructor].
  - exists (Z.max (score fr - p) 0), [Z.max (score fr - p) 0].
    split; [reflexivity|]. repeat constructor. lia.
  - destruct (IHc fr) as [s1 [h1 [E1 N1]]].
    destruct (IHd {| score := s1; history := h1 ++ history fr |})
      as [s2 [h2 [E2 N2]]].
    exists s2, (h2 ++ h1). unfold bind. rewrite E1, E2. cbn [history].
    rewrite app_assoc. split; [reflexivity|].
    apply Forall_app. split; assumption.
Qed.

Lemma loan_affordability_floored n d loan : floored (loan_affordability n d loan).
Proof.
  unfold loan_affordability.
  split_rule;
    repeat first [ apply floored_skip
                 | apply floored_penalise; cbn; tauto
                 | apply floored_seq ].
Qed.

(** C7.  [score] is never negative: every value assigned to it during a call
    is at least 0.  The loan-affordability block is made only of steps
    [score = max(score - p, 0)], one per penalty that applies, so every value
    it assigns is at least 0 whatever the score it starts from. *)
Theorem score_never_negative tenure data loan :
  Forall (Z.le 0) (score_trace tenure data loan)
  /\ (forall net disposable, floored (loan_affordability net disposable loan))
  /\ (forall net disposable fr,
        exists assigned,
          history (fst (loan_affordability net disposable loan fr))
            = assigned ++ history fr
          /\ Forall (Z.le 0) assigned)
  /\ (forall p fr, 0 <= score (fst (penalise p fr)))%Z.
Proof.
  split; [|split; [|split]].
  - unfold score_trace.
    destruct (call_spec tenure data loan) as [fr [[_ N] E]].
    rewrite E, closing_spec. cbn [fst]. now apply Forall_rev.
  - intros net disposable. apply loan_affordability_floored.
  - intros net disposable fr.
    destruct (floored_history _ (loan_affordability_floored net disposable loan) fr)
      as [s [h [E N]]].
    exists h. rewrite E. cbn [fst history]. auto.
  - intros p fr. cbn. lia.
Qed.

(** C8.  The points of the net-to-gross rule do not decrease when the
    net-to-gross ratio grows: for two feature sets that differ in
    [net_salary] only, with [gross_salary] present and positive, the one whose
    ratio [net_salary / gross_salary] is the larger gets at least as many
    points from lines 66-73. *)
Theorem income_ratio_contribution_monotone ft n1 n2 g fr :
  gross_salary ft = Some g ->
  (g >? 0)%float = true ->
  (n1 / g <=? n2 / g)%float = true ->
  (contribution
     (income_evaluation (net_salary (with_net_salary (Some n1) ft))
        (gross_salary (with_net_salary (Some n1) ft))) fr
   <= contribution
        (income_evaluation (net_salary (with_net_salary (Some n2) ft))
           (gross_salary (with_net_salary (Some n2) ft))) fr)%Z.
Proof.
  intros Hg Hpos Hle.
  assert (T : forall c, (c <=? n1 / g)%float = true -> (c <=? n2 / g)%float = true)
    by (intros c Hc; exact (FloatFacts.leb_trans _ _ _ Hc Hle)).
  unfold contribution, income_evaluation.
  cbn [with_net_salary net_salary gross_salary].
  rewrite Hg, Hpos, !(truediv_positive _ g Hpos), !bind_lift. cbv beta.
  unfold Py.ge.
  destruct (0.85 <=? n1 / g)%float eqn:A1; [rewrite (T _ A1); cbn; lia|].
  destruct (0.75 <=? n1 / g)%float eqn:A2;
    [rewrite (T _ A2); destruct (0.85 <=? n2 / g)%float; cbn; lia|].
  destruct (0.65 <=? n1 / g)%float eqn:A3;
    [rewrite (T _ A3); destruct (0.85 <=? n2 / g)%float;
     destruct (0.75 <=? n2 / g)%float; cbn; lia|].
  destruct (0.85 <=? n2 / g)%float, (0.75 <=? n2 / g)%float,
    (0.65 <=? n2 / g)%float; cbn; lia.
Qed.

(** The net-to-gross rule, once it applies, is [score += p] for a [p] among
    5, 10, 15 and 20. *)
Lemma income_evaluation_points n g :
  (g >? 0)%float = true ->
  exists p, In p [5; 10; 15; 20]%Z
            /\ income_evaluation (Some n) (Some g) = add_points p.
Proof.
  intros Hpos. unfold income_evaluation.
  rewrite Hpos, (truediv_positive n g Hpos), bind_lift. cbv beta.
  destruct (n / g >=? 0.85)%float; [exists 20%Z; cbn; tauto|].
  destruct (n / g >=? 0.75)%float; [exists 15%Z; cbn; tauto|].
  destruct (n / g >=? 0.65)%float; [exists 10%Z; cbn; tauto|].
  exists 5%Z; cbn; tauto.
Qed.

(** C9 as stated fails: with net 1000, gross 2000, nothing
    else and the loan amount 100000 the rule awards 5 points, yet the call
    returns 0 with the rule and 0 without it, the [> 8] affordability tier
    flooring both at 0. *)
Lemma final_score_not_five_more :
  net_salary (features (salaries_only 1000 2000)) = Some 1000%float
  /\ gross_salary (features (salaries_only 1000 2000)) = Some 2000%float
  /\ (2000 >? 0)%float = true
  /\ calculate_credit_score four_years_ago (salaries_only 1000 2000) 100000 = inr 0%Z
  /\ without_income_evaluation four_years_ago (salaries_only 1000 2000) 100000 = inr 0%Z
  /\ ~ (0 + 5 <= 0)%Z.
Proof. repeat split; try (vm_compute; reflexivity). lia. Qed.

(** C9, amended.  With both salaries present and [gross_salary > 0] the
    net-to-gross rule is [score += p] with [p] one of 5, 10, 15, 20, so the
    running score right after the rule is at least 5 more than right before
    it; the returned score is not lower than the score the same input gets
    with the rule taken out, and exceeds it by at most [p]. *)
Theorem income_evaluation_contributes tenure data loan n g :
  net_salary (features data) = Some n ->
  gross_salary (features data) = Some g ->
  (g >? 0)%float = true ->
  exists p,
    In p [5; 10; 15; 20]%Z
    /\ (forall fr,
          income_evaluation (net_salary (features data)) (gross_salary (features data)) fr
          = add_points p fr)
    /\ exists s s',
         calculate_credit_score tenure data loan = inr s
         /\ without_income_evaluation tenure data loan = inr s'
         /\ (s' <= s <= s' + p)%Z.
Proof.
  intros Hn Hg Hpos.
  destruct (income_evaluation_points n g Hpos) as [p [Hin Ep]].
  exists p. split; [exact Hin|]. rewrite Hn, Hg, Ep. split; [reflexivity|].
  destruct (ends_with_runs _ _ (scoring_from_line_75_ends tenure (features data) loan))
    as [f [[Tf _] Hf]].
  unfold calculate_credit_score, without_income_evaluation,
    calculate_credit_score_body, body_without_income_evaluation. cbv zeta.
  rewrite Hn, Hg, Ep, !bind_assign, bind_add_points. cbn [score history entry].
  match goal with |- context [scoring_from_line_75 _ _ _ ?fr] =>
    destruct (Hf fr) as [h1 [E1 _]]; rewrite E1; clear E1 end.
  match goal with |- context [scoring_from_line_75 _ _ _ ?fr] =>
    destruct (Hf fr) as [h2 [E2 _]]; rewrite E2; clear E2 end.
  rewrite !closing_spec, Hn, Hg. cbn [snd score].
  do 2 eexists. split; [reflexivity|]. split; [reflexivity|].
  assert (Hp : (0 <= p)%Z) by (cbn in Hin; lia).
  specialize (Tf 0%Z (0 + p)%Z). lia.
Qed.

(** C10.  With both salaries present the call returns a score, also when they
    are zero or negative: no division by zero and no other error.  When
    [gross_salary <= 0] the two ratio rules of Pillar 1 do nothing; when
    [net_salary <= 0] the disposable-income rule, the pension rule and the
    whole loan-affordability block do nothing. *)
Theorem total_on_nonpositive_salaries tenure data loan n g :
  net_salary (features data) = Some n ->
  gross_salary (features data) = Some g ->
  (exists s, calculate_credit_score tenure data loan = inr s /\ (0 <= s <= 100)%Z)
  /\ ((g <=? 0)%float = true ->
      forall basic fr,
        income_evaluation (Some n) (Some g) fr = (fr, inr tt)
        /\ salary_composition basic (Some g) fr = (fr, inr tt))
  /\ ((n <=? 0)%float = true ->
      forall disposable pension amount fr,
        disposable_share disposable (Some n) fr = (fr, inr tt)
        /\ pension_contribution pension (Some n) fr = (fr, inr tt)
        /\ loan_affordability (Some n) disposable amount fr = (fr, inr tt)).
Proof.
  intros Hn Hg. split; [|split].
  - unfold calculate_credit_score.
    destruct (call_spec tenure data loan) as [fr0 [[N _] E]].
    rewrite E, closing_spec, Hn, Hg. cbn [snd].
    eexists. split; [reflexivity|lia].
  - intros Hle basic fr. apply FloatFacts.nonpos_not_pos in Hle.
    unfold income_evaluation, salary_composition, Py.gt. rewrite Hle.
    destruct basic; split; reflexivity.
  - intros Hle disposable pension amount fr. apply FloatFacts.nonpos_not_pos in Hle.
    unfold disposable_share, pension_contribution, loan_affordability, Py.gt.
    rewrite Hle.
    destruct disposable, pension as [p|]; try destruct (0 <? p)%float;
      repeat split; reflexivity.
Qed.

(** * The theorems at concrete requests *)

(** Scenario C of the specification: [net_salary] absent, gross 3000. *)
Example scenario_C_raises :
  calculate_credit_score four_years_ago
    {| success := true; user_id := "user"; loan_id := "loan";
       features :=
         {| net_salary := None; gross_salary := Some 3000%float;
            basic_salary := None; employment_start_date := None; pension := None;
            garnishments := None; indicators := absent |} |} 100000
  = inl (Py.ValueError critical_message).
Proof. vm_compute. reflexivity. Qed.

(** Crossing the 0.85 threshold: 84/100 earns 15 points and 85/100 earns 20. *)
Example threshold_084_085 :
  contribution (income_evaluation (Some 84%float) (Some 100%float)) entry = 15%Z
  /\ contribution (income_evaluation (Some 85%float) (Some 100%float)) entry = 20%Z.
Proof. split; vm_compute; reflexivity. Qed.

Lemma score_is_bounded_witness :
  net_salary (features (salaries_only 2000 2500)) = Some 2000%float
  /\ gross_salary (features (salaries_only 2000 2500)) = Some 2500%float
  /\ exists s,
       calculate_credit_score four_years_ago (salaries_only 2000 2500) 100000 = inr s
       /\ (0 <= s <= 100)%Z.
Proof.
  split; [reflexivity|]. split; [reflexivity|].
  apply (score_is_bounded four_years_ago (salaries_only 2000 2500) 100000 2000 2500);
    reflexivity.
Defined.

Lemma garnishment_cap_witness :
  garnishments (features (with_garnishments (Some 150%float) applicant_A))
    = Some 150%float
  /\ (150 >? 0)%float = true
  /\ calculate_credit_score four_years_ago
       (with_garnishments (Some 150%float) applicant_A) 100000 = inr 30%Z
  /\ (30 <= 30)%Z.
Proof.
  split; [reflexivity|]. split; [reflexivity|]. split; [vm_compute; reflexivity|].
  apply (garnishment_cap four_years_ago
           (with_garnishments (Some 150%float) applicant_A) 100000 150 30);
    [reflexivity|reflexivity|vm_compute; reflexivity].
Defined.

Lemma debt_burden_cap_witness :
  loan_to_net_ratio
    (indicators (features (with_loan_to_net_ratio (Some 0.6%float) applicant_A)))
    = Some 0.6%float
  /\ (0.6 >? 0.5)%float = true
  /\ calculate_credit_score four_years_ago
       (with_loan_to_net_ratio (Some 0.6%float) applicant_A) 100000 = inr 40%Z
  /\ (40 <= 40)%Z.
Proof.
  split; [reflexivity|]. split; [reflexivity|]. split; [vm_compute; reflexivity|].
  apply (debt_burden_cap four_years_ago
           (with_loan_to_net_ratio (Some 0.6%float) applicant_A) 100000 0.6 40);
    [reflexivity|reflexivity|vm_compute; reflexivity].
Defined.

Lemma scenario_A_scores_90_witness :
  "2021-03-01"%string <> ""%string
  /\ four_years_ago "2021-03-01" = Some 1461%Z
  /\ (1095 < 1461)%Z
  /\ calculate_credit_score four_years_ago applicant_A 100000 = inr 90%Z.
Proof.
  assert (H1 : "2021-03-01"%string <> ""%string) by discriminate.
  assert (H3 : (1095 < 1461)%Z) by lia.
  split; [exact H1|]. split; [reflexivity|]. split; [exact H3|].
  exact (proj1 (scenario_A_scores_90 four_years_ago true "user" "loan"
                  "2021-03-01" 1461 H1 eq_refl H3)).
Defined.

Lemma income_ratio_contribution_monotone_witness :
  gross_salary (features (salaries_only 0 100)) = Some 100%float
  /\ (100 >? 0)%float = true
  /\ (84 / 100 <=? 85 / 100)%float = true
  /\ (contribution (income_evaluation (Some 84%float) (Some 100%float)) entry
      <= contribution (income_evaluation (Some 85%float) (Some 100%float)) entry)%Z.
Proof.
  split; [reflexivity|]. split; [reflexivity|]. split; [reflexivity|].
  exact (income_ratio_contribution_monotone (features (salaries_only 0 100))
           84 85 100 entry eq_refl eq_refl eq_refl).
Defined.

Lemma income_evaluation_contributes_witness :
  net_salary (features (scenario_B true "user" "loan")) = Some 2000%float
  /\ gross_salary (features (scenario_B true "user" "loan")) = Some 2500%float
  /\ (2500 >? 0)%float = true
  /\ exists p,
       In p [5; 10; 15; 20]%Z
       /\ (forall fr, income_evaluation (Some 2000%float) (Some 2500%float) fr
                      = add_points p fr)
       /\ exists s s',
            calculate_credit_score four_years_ago (scenario_B true "user" "loan") 100000
              = inr s
            /\ without_income_evaluation four_years_ago (scenario_B true "user" "loan")
                 100000 = inr s'
            /\ (s' <= s <= s' + p)%Z.
Proof.
  split; [reflexivity|]. split; [reflexivity|]. split; [reflexivity|].
  exact (income_evaluation_contributes four_years_ago (scenario_B true "user" "loan")
           100000 2000 2500 eq_refl eq_refl eq_refl).
Defined.

Lemma total_on_nonpositive_salaries_witness :
  net_salary (features (salaries_only (-500) 0)) = Some (-500)%float
  /\ gross_salary (features (salaries_only (-500) 0)) = Some 0%float
  /\ (0 <=? 0)%float = true
  /\ (-500 <=? 0)%float = true
  /\ (exists s,
        calculate_credit_score four_years_ago (salaries_only (-500) 0) 100000 = inr s
        /\ (0 <= s <= 100)%Z)
  /\ income_evaluation (Some (-500)%float) (Some 0%float) entry = (entry, inr tt)
  /\ loan_affordability (Some (-500)%float) None 100000 entry = (entry, inr tt).
Proof.
  destruct (total_on_nonpositive_salaries four_years_ago (salaries_only (-500) 0)
              100000 (-500) 0 eq_refl eq_refl) as [H1 [H2 H3]].
  split; [reflexivity|]. split; [reflexivity|]. split; [reflexivity|].
  split; [reflexivity|]. split; [exact H1|]. split.
  - exact (proj1 (H2 eq_refl None entry)).
  - exact (proj2 (proj2 (H3 eq_refl None None 100000%float entry))).
Defined.

(** * Further properties of the scoring function *)

(** ** Every score is a multiple of 5 between 0 and 100 *)

Ltac graded_leaf :=
  let fr := fresh "fr" in
  let H1 := fresh "H" in
  let H2 := fresh "H" in
  let H3 := fresh "H" in
  intros fr (H1 & H2 & H3);
  eexists; split; [reflexivity|];
  unfold graded; cbn [score history];
  repeat match goal with
         | |- _ /\ _ => split
         | |- Forall _ (_ :: _) => apply Forall_cons
         end;
  try assumption; try (Z.div_mod_to_equations; lia).

Lemma income_evaluation_graded B n g :
  (0 <= B <= 80)%Z -> triple (graded B) (income_evaluation n g) (graded (B + 20)).
Proof. intros HB. unfold income_evaluation. split_rule; graded_leaf. Qed.

Lemma salary_composition_graded B b g :
  (0 <= B <= 90)%Z -> triple (graded B) (salary_composition b g) (graded (B + 10)).
Proof. intros HB. unfold salary_composition. split_rule; graded_leaf. Qed.

Lemma income_stability_graded B flag :
  (0 <= B <= 95)%Z -> triple (graded B) (income_stability flag) (graded (B + 5)).
Proof. intros HB. unfold income_stability. split_rule; graded_leaf. Qed.

Lemma debt_burden_graded B r :
  (0 <= B <= 75)%Z -> triple (graded B) (debt_burden r) (graded (B + 25)).
Proof. intros HB. unfold debt_burden. split_rule; graded_leaf. Qed.

Lemma no_garnishments_graded B g :
  (0 <= B <= 90)%Z -> triple (graded B) (no_garnishments g) (graded (B + 10)).
Proof. intros HB. unfold no_garnishments. split_rule; graded_leaf. Qed.

Lemma disposable_share_graded B d n :
  (0 <= B <= 85)%Z -> triple (graded B) (disposable_share d n) (graded (B + 15)).
Proof. intros HB. unfold disposable_share. split_rule; graded_leaf. Qed.

Lemma pension_contribution_graded B p n :
  (0 <= B <= 95)%Z -> triple (graded B) (pension_contribution p n) (graded (B + 5)).
Proof. intros HB. unfold pension_contribution. split_rule; graded_leaf. Qed.

Lemma employment_stability_graded tenure B s :
  (0 <= B <= 90)%Z ->
  triple (graded B) (employment_stability tenure s) (graded (B + 10)).
Proof. intros HB. unfold employment_stability. split_rule; graded_leaf. Qed.

Lemma loan_affordability_graded B n d loan :
  (0 <= B <= 100)%Z -> triple (graded B) (loan_affordability n d loan) (graded B).
Proof. intros HB. unfold loan_affordability. split_rule; graded_leaf. Qed.

Lemma garnishment_red_flag_graded B g :
  (0 <= B <= 100)%Z -> triple (graded B) (garnishment_red_flag g) (graded B).
Proof. intros HB. unfold garnishment_red_flag. split_rule; graded_leaf. Qed.

Lemma debt_red_flag_graded B r :
  (0 <= B <= 100)%Z -> triple (graded B) (debt_red_flag r) (graded B).
Proof. intros HB. unfold debt_red_flag. split_rule; graded_leaf. Qed.

(** One step of a run: a command with a triple, then the rest. *)
Lemma triple_then {B} (P Q : frame -> Prop) c (m : M B)
    (R : frame * (Py.exn + B) -> Prop) :
  triple P c Q ->
  (forall fr, Q fr -> R (m fr)) ->
  forall fr, P fr -> R ((c ;; m) fr).
Proof.
  intros Hc Hm fr HP. destruct (Hc fr HP) as [fr' [E HQ]].
  unfold bind. rewrite E. auto.
Qed.

(** The frame at line 169 holds only multiples of 5 between 0 and 100. *)
Lemma call_graded tenure data loan :
  exists fr,
    graded 100 fr
    /\ calculate_credit_score_body tenure data loan entry =
         closing (net_salary (features data)) (gross_salary (features data)) fr.
Proof.
  unfold calculate_credit_score_body, scoring_from_line_75. cbv zeta.
  rewrite bind_assign.
  assert (H0 : graded 0 {| score := 0; history := 0%Z :: history entry |}).
  { unfold graded; cbn. repeat split; try lia. repeat constructor; lia. }
  revert H0. generalize {| score := 0; history := 0%Z :: history entry |}.
  set (R := fun o : frame * (Py.exn + Z) =>
              exists fr, graded 100 fr
                         /\ o = closing (net_salary (features data))
                                  (gross_salary (features data)) fr).
  intros fr0 H0.
  match goal with |- exists fr, _ /\ ?run = _ => change (R run) end.
  revert fr0 H0.
  apply (triple_then (graded 0) (graded 20) _ _ R);
    [apply (income_evaluation_graded 0); lia|].
  apply (triple_then (graded 20) (graded 30) _ _ R);
    [apply (salary_composition_graded 20); lia|].
  apply (triple_then (graded 30) (graded 35) _ _ R);
    [apply (income_stability_graded 30); lia|].
  apply (triple_then (graded 35) (graded 60) _ _ R);
    [apply (debt_burden_graded 35); lia|].
  apply (triple_then (graded 60) (graded 70) _ _ R);
    [apply (no_garnishments_graded 60); lia|].
  apply (triple_then (graded 70) (graded 85) _ _ R);
    [apply (disposable_share_graded 70); lia|].
  apply (triple_then (graded 85) (graded 90) _ _ R);
    [apply (pension_contribution_graded 85); lia|].
  apply (triple_then (graded 90) (graded 100) _ _ R);
    [apply (employment_stability_graded tenure 90); lia|].
  apply (triple_then (graded 100) (graded 100) _ _ R);
    [apply (loan_affordability_graded 100); lia|].
  apply (triple_then (graded 100) (graded 100) _ _ R);
    [apply (garnishment_red_flag_graded 100); lia|].
  apply (triple_then (graded 100) (graded 100) _ _ R);
    [apply (debt_red_flag_graded 100); lia|].
  intros fr H. exists fr. split; [exact H|reflexivity].
Qed.

(** X1.  [score] never exceeds 100: every value assigned to it during a call
    is at most 100, so [min(score, 100)] at line 172 changes nothing and the
    call returns the final value of [score] itself. *)
Theorem clamp_at_100_never_bites tenure data loan :
  Forall (fun v => (v <= 100)%Z) (score_trace tenure data loan)
  /\ (forall s, calculate_credit_score tenure data loan = inr s ->
                s = final_running_score tenure data loan).
Proof.
  unfold score_trace, calculate_credit_score, final_running_score.
  destruct (call_graded tenure data loan) as [fr [(Hs & _ & Hh) E]].
  rewrite E, closing_spec. cbn [fst snd]. split.
  - apply Forall_rev. eapply Forall_impl; [|exact Hh]. intros v Hv. apply Hv.
  - destruct (net_salary (features data)), (gross_salary (features data));
      intros s H; inversion H; lia.
Qed.

(** X2.  Scores come in steps of 5: the returned score and every value
    [score] takes on the way are multiples of 5. *)
Theorem scores_are_multiples_of_5 tenure data loan :
  Forall (fun v => (v mod 5 = 0)%Z) (score_trace tenure data loan)
  /\ (forall s, calculate_credit_score tenure data loan = inr s -> (s mod 5 = 0)%Z).
Proof.
  unfold score_trace, calculate_credit_score.
  destruct (call_graded tenure data loan) as [fr [(Hs & Hm & Hh) E]].
  rewrite E, closing_spec. cbn [fst snd]. split.
  - apply Forall_rev. eapply Forall_impl; [|exact Hh]. intros v Hv. apply Hv.
  - destruct (net_salary (features data)), (gross_salary (features data));
      intros s H; inversion H. rewrite Z.min_l by lia. exact Hm.
Qed.

(** X3.  The pillar maxima the comments of the source give: from any frame
    the three rules of Pillar 1 add at most 20, 10 and 5 points (35), the
    two of Pillar 2 at most 25 and 10 (35), the two of Pillar 3 at most 15
    and 5 (20), Pillar 4 at most 10, and none of them ever takes points
    away. *)
Theorem pillar_maxima tenure fr :
  (forall n g, 0 <= contribution (income_evaluation n g) fr <= 20)%Z
  /\ (forall b g, 0 <= contribution (salary_composition b g) fr <= 10)%Z
  /\ (forall flag, 0 <= contribution (income_stability flag) fr <= 5)%Z
  /\ (forall r, 0 <= contribution (debt_burden r) fr <= 25)%Z
  /\ (forall g, 0 <= contribution (no_garnishments g) fr <= 10)%Z
  /\ (forall d n, 0 <= contribution (disposable_share d n) fr <= 15)%Z
  /\ (forall p n, 0 <= contribution (pension_contribution p n) fr <= 5)%Z
  /\ (forall s, 0 <= contribution (employment_stability tenure s) fr <= 10)%Z.
Proof.
  unfold contribution, income_evaluation, salary_composition, income_stability,
    debt_burden, no_garnishments, disposable_share, pension_contribution,
    employment_stability.
  repeat match goal with |- _ /\ _ => split end;
    intros; split_rule; cbn; lia.
Qed.

(** ** Changes to a request that cannot raise its score *)

Module FloatOrder.

Local Open Scope float_scope.

Lemma SFltb_leb_trans x y z :
  SFltb x y = true -> SFleb y z = true -> SFltb x z = true.
Proof.
  unfold SFltb, SFleb.
  destruct x as [sx|sx| |sx mx ex], y as [sy|sy| |sy my ey], z as [sz|sz| |sz mz ez];
    cbn; try destruct sx; try destruct sy; try destruct sz; try congruence;
    change (Pos.compare_cont Eq) with Pos.compare;
    destruct (Z.compare_spec ex ey), (Z.compare_spec ey ez), (Z.compare_spec ex ez);
    try lia; try congruence; subst;
    destruct (Pos.compare_spec mx my), (Pos.compare_spec my mz),
      (Pos.compare_spec mx mz);
    cbn; try lia; congruence.
Qed.

Lemma ltb_leb_trans x y z :
  (x <? y) = true -> (y <=? z) = true -> (x <? z) = true.
Proof. rewrite !ltb_spec, leb_spec. apply SFltb_leb_trans. Qed.

(** A NaN is the one double that is not equal to itself. *)
Lemma nan_spec x : is_nan x = true -> Prim2SF x = S754_nan.
Proof.
  unfold is_nan. rewrite eqb_spec. unfold SFeqb.
  destruct (Prim2SF x) as [s|s| |s m e]; cbn; try destruct s;
    try discriminate; try reflexivity;
    rewrite Z.compare_refl; change (Pos.compare_cont Eq m m) with (Pos.compare m m);
    rewrite Pos.compare_refl; discriminate.
Qed.

Lemma nan_not_above x y : is_nan x = true -> (y <? x) = false.
Proof.
  intros H. rewrite ltb_spec, (nan_spec x H).
  unfold SFltb. destruct (Prim2SF y); reflexivity.
Qed.

Lemma nan_quotient_not_above x y c : is_nan x = true -> (c <=? x / y) = false.
Proof.
  intros H. rewrite leb_spec, div_spec, (nan_spec x H).
  unfold SFleb, SF64div. destruct (Prim2SF c), (Prim2SF y); reflexivity.
Qed.

(** Zero divided by a positive double is zero. *)
Lemma zero_quotient y : (0 <? y) = true -> Prim2SF (0 / y) = S754_zero false.
Proof.
  rewrite ltb_spec, div_spec, FloatFacts.Prim2SF_zero.
  destruct (Prim2SF y) as [[]|[]| |[] m e]; try discriminate; reflexivity.
Qed.

End FloatOrder.

Lemma straight_returns c :
  straight c -> forall fr, c fr = (fst (c fr), inr tt).
Proof.
  intros Hc fr. destruct (straight_runs c Hc) as [f [Hf _]].
  destruct (Hf fr) as [h [E _]]. rewrite E. reflexivity.
Qed.

Lemma below_refl c : straight c -> below c c.
Proof.
  intros Hc fr1 fr2 Hle. destruct (straight_runs c Hc) as [f [Hf [Tf Nf]]].
  destruct (Hf fr1) as [h1 [E1 _]]. destruct (Hf fr2) as [h2 [E2 _]].
  rewrite E1, E2. cbn [fst score].
  pose proof (Tf _ _ (proj2 Hle)). pose proof (Nf _ (proj1 Hle)). lia.
Qed.

Lemma dominated_step c1 c2 m1 m2 :
  straight c1 -> straight c2 -> below c1 c2 -> dominated m1 m2 ->
  dominated (c1 ;; m1) (c2 ;; m2).
Proof.
  intros H1 H2 Hb Hm fr1 fr2 Hle. unfold bind.
  rewrite (straight_returns c1 H1 fr1), (straight_returns c2 H2 fr2).
  apply Hm. apply Hb. exact Hle.
Qed.

Lemma dominated_closing n g : dominated (closing n g) (closing n g).
Proof.
  intros fr1 fr2 Hle. rewrite !closing_spec. cbn [snd].
  destruct n, g; cbn; try reflexivity. lia.
Qed.

(** Steps through two runs that differ in the commands [below] relates. *)
Ltac dominate :=
  repeat (apply dominated_step;
          [ solve [auto with scoring | constructor; lia]
          | solve [auto with scoring | constructor; lia]
          | first [ assumption | apply below_refl; solve [auto with scoring | constructor; lia] ]
          | ]);
  apply dominated_closing.

Lemma employment_stability_below tenure1 tenure2 start :
  (forall s d1, tenure1 s = Some d1 -> exists d2, tenure2 s = Some d2 /\ (d1 <= d2)%Z) ->
  below (employment_stability tenure1 start) (employment_stability tenure2 start).
Proof.
  intros Hclock fr1 fr2 Hle. unfold employment_stability.
  destruct start as [s|]; [|cbn; lia].
  destruct (Py.truthy_str s); [|cbn; lia].
  destruct (tenure1 s) as [d1|] eqn:E1.
  - destruct (Hclock s d1 E1) as [d2 [E2 Hd]]. rewrite E2.
    rewrite !Z.gtb_ltb.
    destruct (Z.ltb_spec (3 * 365) d1), (Z.ltb_spec (1 * 365) d1),
      (Z.ltb_spec (3 * 365) d2), (Z.ltb_spec (1 * 365) d2); cbn; lia.
  - destruct (tenure2 s) as [d2|]; [|cbn; lia].
    rewrite !Z.gtb_ltb.
    destruct (Z.ltb_spec (3 * 365) d2), (Z.ltb_spec (1 * 365) d2); cbn; lia.
Qed.

(** X4.  Scoring the same request under a later clock never lowers the
    score: if every start date that parses is at least as many days back as
    before, the call raises the same error or returns a score at least as
    high. *)
Theorem later_clock_never_lowers tenure1 tenure2 data loan :
  (forall s d1, tenure1 s = Some d1 -> exists d2, tenure2 s = Some d2 /\ (d1 <= d2)%Z) ->
  outcome_le (calculate_credit_score tenure1 data loan)
             (calculate_credit_score tenure2 data loan).
Proof.
  intros Hclock.
  pose proof (employment_stability_below tenure1 tenure2
                (employment_start_date (features data)) Hclock) as Hb.
  assert (D : dominated (calculate_credit_score_body tenure1 data loan)
                        (calculate_credit_score_body tenure2 data loan)).
  { unfold calculate_credit_score_body, scoring_from_line_75. cbv zeta. dominate. }
  apply D. cbn. lia.
Qed.

Ltac expose_fields :=
  unfold calculate_credit_score_body, scoring_from_line_75;
  cbv zeta;
  cbn [with_loan_to_net_ratio with_garnishments with_employment_start_date
       features indicators net_salary gross_salary basic_salary
       employment_start_date pension garnishments loan_to_net_ratio
       disposable_income income_stability_flag].

Lemma debt_burden_below r1 r2 :
  (r1 <=? r2)%float = true ->
  below (debt_burden (Some r2)) (debt_burden (Some r1)).
Proof.
  intros Hle fr1 fr2 Hs. unfold debt_burden.
  assert (T : forall c, (r2 <=? c)%float = true -> (r1 <=? c)%float = true)
    by (intros c Hc; exact (FloatFacts.leb_trans _ _ _ Hle Hc)).
  destruct (r2 <=? 0.1)%float eqn:A1; [rewrite (T _ A1); cbn; lia|].
  destruct (r2 <=? 0.25)%float eqn:A2;
    [rewrite (T _ A2); destruct (r1 <=? 0.1)%float; cbn; lia|].
  destruct (r2 <=? 0.4)%float eqn:A3;
    [rewrite (T _ A3); destruct (r1 <=? 0.1)%float, (r1 <=? 0.25)%float; cbn; lia|].
  destruct (r1 <=? 0.1)%float, (r1 <=? 0.25)%float, (r1 <=? 0.4)%float; cbn; lia.
Qed.

Lemma debt_red_flag_below r1 r2 :
  (r1 <=? r2)%float = true ->
  below (debt_red_flag (Some r2)) (debt_red_flag (Some r1)).
Proof.
  intros Hle fr1 fr2 Hs. unfold debt_red_flag, Py.gt.
  destruct (0.5 <? r1)%float eqn:A.
  - rewrite (FloatOrder.ltb_leb_trans _ _ _ A Hle). cbn. lia.
  - destruct (0.5 <? r2)%float; cbn; lia.
Qed.

(** X5.  A lower existing-debt ratio never lowers the score: of two requests
    that differ only in [indicators.loan_to_net_ratio], the one with the
    smaller ratio gets the same error or a score at least as high. *)
Theorem lower_debt_ratio_never_lowers tenure data loan r1 r2 :
  (r1 <=? r2)%float = true ->
  outcome_le
    (calculate_credit_score tenure (with_loan_to_net_ratio (Some r2) data) loan)
    (calculate_credit_score tenure (with_loan_to_net_ratio (Some r1) data) loan).
Proof.
  intros Hle.
  pose proof (debt_burden_below r1 r2 Hle) as Hb1.
  pose proof (debt_red_flag_below r1 r2 Hle) as Hb2.
  assert (D : dominated
                (calculate_credit_score_body tenure
                   (with_loan_to_net_ratio (Some r2) data) loan)
                (calculate_credit_score_body tenure
                   (with_loan_to_net_ratio (Some r1) data) loan)).
  { expose_fields. dominate. }
  apply D. cbn. lia.
Qed.

Lemma no_garnishments_below g :
  below (no_garnishments (Some g)) (no_garnishments None).
Proof.
  intros fr1 fr2 Hs. unfold no_garnishments.
  destruct (g == 0)%float; cbn; lia.
Qed.

Lemma garnishment_red_flag_below g :
  below (garnishment_red_flag (Some g)) (garnishment_red_flag None).
Proof.
  intros fr1 fr2 Hs. unfold garnishment_red_flag.
  destruct (g >? 0)%float; cbn; lia.
Qed.

(** X6.  Reporting garnishments never raises the score: whatever value
    [garnishments] holds, the request gets the same error or a score no
    higher than the same request with [garnishments] absent. *)
Theorem garnishments_never_raise tenure data loan g :
  outcome_le
    (calculate_credit_score tenure (with_garnishments (Some g) data) loan)
    (calculate_credit_score tenure (with_garnishments None data) loan).
Proof.
  pose proof (no_garnishments_below g) as Hb1.
  pose proof (garnishment_red_flag_below g) as Hb2.
  assert (D : dominated
                (calculate_credit_score_body tenure (with_garnishments (Some g) data) loan)
                (calculate_credit_score_body tenure (with_garnishments None data) loan)).
  { expose_fields. dominate. }
  apply D. cbn. lia.
Qed.

(** With a loan amount of 0 the affordability block does nothing. *)
Lemma loan_affordability_zero n d fr :
  loan_affordability n d 0 fr = (fr, inr tt).
Proof.
  unfold loan_affordability.
  destruct n as [net|]; [|reflexivity].
  destruct (net >? 0)%float eqn:Hpos; [|reflexivity].
  rewrite (truediv_annual_income 0 net Hpos), bind_lift. cbv beta.
  assert (Hq : Prim2SF (0 / (net * 12)) = S754_zero false)
    by (apply FloatOrder.zero_quotient, FloatFacts.mul_twelve_pos, Hpos).
  unfold Py.gt, Py.ge. rewrite !ltb_spec, Hq.
  reflexivity.
Qed.

Lemma loan_affordability_lowers n d loan fr :
  (0 <= score fr)%Z ->
  (-65 <= contribution (loan_affordability n d loan) fr <= 0)%Z.
Proof.
  intros Hs. unfold contribution, loan_affordability. split_rule; cbn; lia.
Qed.

Lemma loan_affordability_below n d loan :
  below (loan_affordability n d loan) (loan_affordability n d 0).
Proof.
  intros fr1 fr2 Hs. rewrite loan_affordability_zero. cbn [fst].
  unfold loan_affordability. split_rule; cbn; lia.
Qed.

(** X7.  The loan amount can only cost points: no requested amount gets a
    request a higher score than the amount 0 does, for which the
    affordability block applies no penalty at all; and whatever the amount,
    the block takes at most 65 points (30, 20 and 15) off a score. *)
Theorem no_amount_beats_zero tenure data loan :
  outcome_le (calculate_credit_score tenure data loan)
             (calculate_credit_score tenure data 0)
  /\ (forall n d fr, loan_affordability n d 0 fr = (fr, inr tt))
  /\ (forall n d fr,
        (0 <= score fr)%Z ->
        (-65 <= contribution (loan_affordability n d loan) fr <= 0)%Z).
Proof.
  split; [|split; [intros; apply loan_affordability_zero
                  |intros; now apply loan_affordability_lowers]].
  pose proof (loan_affordability_below (net_salary (features data))
                (disposable_income (indicators (features data))) loan) as Hb.
  assert (D : dominated (calculate_credit_score_body tenure data loan)
                        (calculate_credit_score_body tenure data 0)).
  { expose_fields. dominate. }
  apply D. cbn. lia.
Qed.

(** ** Edge cases of the inputs *)

(** X8.  A start date that earns nothing is as good as none: when
    [employment_start_date] is the empty string, does not parse, or parses
    to at most 365 days back (a date in the future included), the call gives
    the same result and takes the same steps as with the field absent; no
    parse failure surfaces as an error. *)
Theorem fruitless_start_date_is_absent tenure data loan start :
  start = ""%string \/ tenure start = None
  \/ (exists days, tenure start = Some days /\ (days <= 365)%Z) ->
  calculate_credit_score tenure (with_employment_start_date (Some start) data) loan
  = calculate_credit_score tenure (with_employment_start_date None data) loan
  /\ score_trace tenure (with_employment_start_date (Some start) data) loan
     = score_trace tenure (with_employment_start_date None data) loan.
Proof.
  intros H.
  assert (E : employment_stability tenure (Some start)
              = employment_stability tenure None).
  { unfold employment_stability, Py.truthy_str.
    destruct H as [->|[H|[days [H Hd]]]]; [reflexivity| |].
    - rewrite H. destruct (negb (start =? ""))%string; reflexivity.
    - rewrite H, !Z.gtb_ltb.
      destruct (Z.ltb_spec (3 * 365) days), (Z.ltb_spec (1 * 365) days);
        try lia.
      destruct (negb (start =? ""))%string; reflexivity. }
  unfold calculate_credit_score, score_trace. expose_fields.
  rewrite E. split; reflexivity.
Qed.

(** X9.  The score depends on nine fields only: two requests that agree on
    [net_salary], [gross_salary], [basic_salary], [employment_start_date],
    [pension], [garnishments] and on the indicators [loan_to_net_ratio],
    [disposable_income] and [income_stability_flag] get the same result and
    the same steps, whatever [success], the identifiers and the other nine
    indicators hold; the indicator [net_to_gross_ratio] in particular is
    never read, the ratio being recomputed from the two salaries. *)
Theorem score_reads_nine_fields tenure a b loan :
  same_scoring_fields a b ->
  calculate_credit_score tenure a loan = calculate_credit_score tenure b loan
  /\ score_trace tenure a loan = score_trace tenure b loan.
Proof.
  destruct a as [sa ua la [na ga ba da pa ra ia]].
  destruct b as [sb ub lb [nb gb bb db pb rb ib]].
  destruct ia, ib. unfold same_scoring_fields. cbn.
  intros (-> & -> & -> & -> & -> & -> & -> & -> & ->).
  split; reflexivity.
Qed.

(** X10.  A NaN salary is scored, not rejected.  With [net_salary] a NaN
    (and present) the critical check passes; the net-to-gross rule awards
    its lowest tier, 5 points, when [gross_salary > 0]; and the
    disposable-income rule, the pension rule and the whole loan-affordability
    block are skipped, so no affordability penalty is ever applied. *)
Theorem nan_net_salary_is_scored tenure data loan n g :
  is_nan n = true ->
  net_salary (features data) = Some n ->
  gross_salary (features data) = Some g ->
  (exists s, calculate_credit_score tenure data loan = inr s)
  /\ ((g >? 0)%float = true ->
      forall fr, income_evaluation (Some n) (Some g) fr = add_points 5 fr)
  /\ (forall disposable pension amount fr,
        disposable_share disposable (Some n) fr = (fr, inr tt)
        /\ pension_contribution pension (Some n) fr = (fr, inr tt)
        /\ loan_affordability (Some n) disposable amount fr = (fr, inr tt)).
Proof.
  intros Hnan Hn Hg. split; [|split].
  - unfold calculate_credit_score.
    destruct (call_spec tenure data loan) as [fr0 [_ E]].
    rewrite E, closing_spec, Hn, Hg. cbn [snd]. eauto.
  - intros Hpos fr. unfold income_evaluation.
    rewrite Hpos, (truediv_positive n g Hpos), bind_lift. cbv beta.
    unfold Py.ge. rewrite !(FloatOrder.nan_quotient_not_above n g _ Hnan).
    reflexivity.
  - intros disposable pension amount fr.
    pose proof (FloatOrder.nan_not_above n 0 Hnan) as H0.
    unfold disposable_share, pension_contribution, loan_affordability, Py.gt.
    rewrite H0.
    destruct disposable, pension as [p|]; try destruct (0 <? p)%float;
      repeat split; reflexivity.
Qed.

(** ** The endpoint *)

(** X11.  [evaluate_credit_score] answers in one of two ways.  With both
    salaries present it returns a response that carries the request's
    [user_id] and [loan_id] unchanged and, as [credit_score], the score of
    the request for a loan amount of 100000, between 0 and 100, so the
    response model's [ge=0, le=100] constraint never fails.  With a salary
    absent it raises an [HTTPException] with status 422 and the
    critical-data message as detail.  It never raises with status 500. *)
Theorem evaluate_credit_score_outcomes tenure zero_text validation payslip_data :
  (net_salary (features payslip_data) <> None ->
   gross_salary (features payslip_data) <> None ->
   exists s,
     calculate_credit_score tenure payslip_data 100000 = inr s
     /\ (0 <= s <= 100)%Z
     /\ evaluate_credit_score tenure zero_text validation payslip_data
        = inr {| Http.user_id := user_id payslip_data;
                 Http.loan_id := loan_id payslip_data;
                 Http.credit_score := s |})
  /\ (net_salary (features payslip_data) = None
      \/ gross_salary (features payslip_data) = None ->
      evaluate_credit_score tenure zero_text validation payslip_data
      = inl {| Http.status_code := 422; Http.detail := critical_message |})
  /\ (forall e,
        evaluate_credit_score tenure zero_text validation payslip_data = inl e ->
        Http.status_code e = 422%Z).
Proof.
  unfold evaluate_credit_score, calculate_credit_score. cbv zeta.
  destruct (call_spec tenure payslip_data 100000) as [fr [[N _] E]].
  rewrite E, closing_spec. cbn [snd].
  destruct (net_salary (features payslip_data)) as [n|],
           (gross_salary (features payslip_data)) as [g|].
  - unfold new_CreditScoreResponse.
    assert (Hin : ((0 <=? Z.min (score fr) 100) && (Z.min (score fr) 100 <=? 100))%Z
                  = true)
      by (apply andb_true_intro; split; apply Z.leb_le; lia).
    rewrite Hin. split; [|split].
    + intros _ _. eexists. split; [reflexivity|]. split; [lia|reflexivity].
    + intros [H|H]; discriminate.
    + intros e H; discriminate.
  - split; [|split]; [intros _ H; congruence|reflexivity|].
    intros e H; inversion H; reflexivity.
  - split; [|split]; [intros H; congruence|reflexivity|].
    intros e H; inversion H; reflexivity.
  - split; [|split]; [intros H; congruence|reflexivity|].
    intros e H; inversion H; reflexivity.
Qed.

Lemma zero_not_positive (x : float) : (x == 0)%float = true -> (x >? 0)%float = false.
Proof.
  unfold Py.eq, Py.gt. rewrite eqb_spec, ltb_spec, FloatFacts.Prim2SF_zero.
  destruct (Prim2SF x) as [s|s| |s m e]; cbn; try destruct s; congruence.
Qed.

(** X12.  Garnishments of zero are garnishments absent: when [garnishments]
    equals 0 (as a float, so [-0.0] too) the call gives the same result and
    takes the same steps as with the field absent: the 10 points are awarded
    and the cap at 30 is not applied. *)
Theorem zero_garnishments_is_absent tenure data loan g :
  (g == 0)%float = true ->
  calculate_credit_score tenure (with_garnishments (Some g) data) loan
  = calculate_credit_score tenure (with_garnishments None data) loan
  /\ score_trace tenure (with_garnishments (Some g) data) loan
     = score_trace tenure (with_garnishments None data) loan.
Proof.
  intros Hz.
  assert (E1 : no_garnishments (Some g) = no_garnishments None)
    by (unfold no_garnishments; rewrite Hz; reflexivity).
  assert (E2 : garnishment_red_flag (Some g) = garnishment_red_flag None)
    by (unfold garnishment_red_flag; rewrite (zero_not_positive g Hz); reflexivity).
  unfold calculate_credit_score, score_trace. expose_fields.
  rewrite E1, E2. split; reflexivity.
Qed.

(** ** The further properties at concrete requests *)

Lemma later_clock_never_lowers_witness :
  (forall s d1, four_hundred_days_ago s = Some d1 ->
                exists d2, four_years_ago s = Some d2 /\ (d1 <= d2)%Z)
  /\ calculate_credit_score four_hundred_days_ago applicant_A 100000 = inr 85%Z
  /\ calculate_credit_score four_years_ago applicant_A 100000 = inr 90%Z
  /\ outcome_le (calculate_credit_score four_hundred_days_ago applicant_A 100000)
                (calculate_credit_score four_years_ago applicant_A 100000).
Proof.
  assert (H : forall s d1, four_hundred_days_ago s = Some d1 ->
                           exists d2, four_years_ago s = Some d2 /\ (d1 <= d2)%Z).
  { intros s d1 E. inversion E. exists 1461%Z. split; [reflexivity|lia]. }
  split; [exact H|]. split; [vm_compute; reflexivity|].
  split; [vm_compute; reflexivity|].
  exact (later_clock_never_lowers four_hundred_days_ago four_years_ago
           applicant_A 100000 H).
Defined.

Lemma lower_debt_ratio_never_lowers_witness :
  (0.05 <=? 0.6)%float = true
  /\ calculate_credit_score four_years_ago
       (with_loan_to_net_ratio (Some 0.6%float) applicant_A) 100000 = inr 40%Z
  /\ calculate_credit_score four_years_ago
       (with_loan_to_net_ratio (Some 0.05%float) applicant_A) 100000 = inr 90%Z
  /\ outcome_le
       (calculate_credit_score four_years_ago
          (with_loan_to_net_ratio (Some 0.6%float) applicant_A) 100000)
       (calculate_credit_score four_years_ago
          (with_loan_to_net_ratio (Some 0.05%float) applicant_A) 100000).
Proof.
  split; [reflexivity|]. split; [vm_compute; reflexivity|].
  split; [vm_compute; reflexivity|].
  exact (lower_debt_ratio_never_lowers four_years_ago applicant_A 100000
           0.05 0.6 eq_refl).
Defined.

Lemma fruitless_start_date_is_absent_witness :
  (""%string = ""%string \/ four_years_ago "" = None
   \/ (exists days, four_years_ago "" = Some days /\ (days <= 365)%Z))
  /\ calculate_credit_score four_years_ago
       (with_employment_start_date (Some ""%string) applicant_A) 100000 = inr 80%Z
  /\ calculate_credit_score four_years_ago
       (with_employment_start_date (Some ""%string) applicant_A) 100000
     = calculate_credit_score four_years_ago
         (with_employment_start_date None applicant_A) 100000.
Proof.
  split; [left; reflexivity|]. split; [vm_compute; reflexivity|].
  exact (proj1 (fruitless_start_date_is_absent four_years_ago applicant_A 100000
                  "" (or_introl eq_refl))).
Defined.

Lemma score_reads_nine_fields_witness :
  same_scoring_fields (scenario_B true "user" "loan") scenario_B_restated
  /\ calculate_credit_score four_years_ago (scenario_B true "user" "loan") 100000
     = calculate_credit_score four_years_ago scenario_B_restated 100000.
Proof.
  assert (H : same_scoring_fields (scenario_B true "user" "loan") scenario_B_restated)
    by (unfold same_scoring_fields; cbn; repeat split; reflexivity).
  split; [exact H|].
  exact (proj1 (score_reads_nine_fields four_years_ago _ _ 100000 H)).
Defined.

Lemma nan_net_salary_is_scored_witness :
  is_nan nan = true
  /\ net_salary (features (salaries_only nan 2500)) = Some nan
  /\ gross_salary (features (salaries_only nan 2500)) = Some 2500%float
  /\ (2500 >? 0)%float = true
  /\ calculate_credit_score four_years_ago (salaries_only nan 2500) 100000 = inr 15%Z
  /\ income_evaluation (Some nan) (Some 2500%float) entry = add_points 5 entry.
Proof.
  destruct (nan_net_salary_is_scored four_years_ago (salaries_only nan 2500) 100000
              nan 2500 eq_refl eq_refl eq_refl) as [_ [H _]].
  split; [reflexivity|]. split; [reflexivity|]. split; [reflexivity|].
  split; [reflexivity|]. split; [vm_compute; reflexivity|].
  exact (H eq_refl entry).
Defined.

Lemma evaluate_credit_score_outcomes_witness :
  evaluate_credit_score four_years_ago "float division by zero"
    (fun _ => "validation error"%string) applicant_A
  = inr {| Http.user_id := "user"; Http.loan_id := "loan"; Http.credit_score := 90 |}
  /\ evaluate_credit_score four_years_ago "float division by zero"
       (fun _ => "validation error"%string)
       (with_employment_start_date None
          {| success := true; user_id := "user"; loan_id := "loan";
             features := with_net_salary None (features applicant_A) |})
     = inl {| Http.status_code := 422; Http.detail := critical_message |}.
Proof.
  split.
  - destruct (proj1 (evaluate_credit_score_outcomes four_years_ago
                       "float division by zero" (fun _ => "validation error"%string)
                       applicant_A)) as [s [Hs [_ He]]];
      [discriminate|discriminate|].
    rewrite He. assert (E : s = 90%Z) by (vm_compute in Hs; congruence).
    rewrite E. reflexivity.
  - apply (proj1 (proj2 (evaluate_credit_score_outcomes four_years_ago
                           "float division by zero"
                           (fun _ => "validation error"%string) _))).
    left. reflexivity.
Defined.

Lemma zero_garnishments_is_absent_witness :
  (neg_zero == 0)%float = true
  /\ calculate_credit_score four_years_ago
       (with_garnishments (Some neg_zero) applicant_A) 100000 = inr 90%Z
  /\ calculate_credit_score four_years_ago
       (with_garnishments (Some neg_zero) applicant_A) 100000
     = calculate_credit_score four_years_ago
         (with_garnishments None applicant_A) 100000.
Proof.
  split; [reflexivity|]. split; [vm_compute; reflexivity|].
  exact (proj1 (zero_garnishments_is_absent four_years_ago applicant_A 100000
                  neg_zero eq_refl)).
Defined.
